(** * react-analyzer-mcp: the project documentation pipeline of [src/index.ts]

    A shallow embedding of the six functions of [src/index.ts] that make up
    the documentation pipeline, and the properties stated about them.

    - JavaScript strings are modelled as [string]: the UTF-8 bytes of the
      text.  Concatenation and comparison with an ASCII literal agree with
      the UTF-16 originals on well-formed text.
    - An object used as a map ([component.props], a descriptor's [props]) is
      an association list in [Object.entries] order.
    - An optional field is an [option]; JavaScript truthiness of an optional
      string ([undefined], [null] and the empty string are falsy) is
      [truthy].
    - Functions that touch the console, the file system or the external
      analyzer live in a small state-and-exception monad [M]. *)

From Stdlib Require Import String Ascii List Bool Arith.
Import ListNotations.

Set Warnings "-register-all".

Open Scope list_scope.
Open Scope string_scope.

(** * Part I: the program *)

(** ** Strings *)

(** The line feed written [\n] in the source. *)
Definition LF : string := String "010"%char EmptyString.

(** [String.prototype.startsWith] and [String.prototype.endsWith]. *)
Definition startsWith (s searchString : string) : bool :=
  String.prefix searchString s.

Fixpoint endsWith (s searchString : string) : bool :=
  (s =? searchString) ||
  match s with
  | EmptyString => false
  | String _ s' => endsWith s' searchString
  end.

(** [s] occurs in [t] as a contiguous piece. *)
Definition occurs_in (s t : string) : Prop :=
  exists before after, t = before ++ s ++ after.

(** A decision procedure for [occurs_in], used on concrete outputs. *)
Fixpoint includes (s t : string) : bool :=
  String.prefix s t ||
  match t with
  | EmptyString => false
  | String _ t' => includes s t'
  end.

(** [n] copies of [s], one after the other. *)
Definition copies (n : nat) (s : string) : string :=
  String.concat "" (repeat s n).

(** JavaScript truthiness of an optional string field: the field when it
    is a string that is not empty; [undefined], [null] and the empty string
    are falsy. *)
Definition truthy (field : option string) : option string :=
  match field with
  | Some (String c s) => Some (String c s)
  | Some EmptyString => None
  | None => None
  end.

(** Truthiness of an optional object: every object is truthy. *)
Definition present {A : Type} (field : option A) : bool :=
  match field with
  | Some _ => true
  | None => false
  end.

(** ** Data model of the analysis result *)

Inductive PropDescriptor : Type :=
  mkPropDescriptor {
    type : string;
    optional : bool;
    defaultValue : option string;
    elementType : option PropDescriptor;
    props : option (list (string * PropDescriptor));
    typeName : option string
  }.

Record Component : Type :=
  mkComponent {
    name : string;
    wrapperFn : option string;
    component_props : option (list (string * PropDescriptor))
  }.

Record ComponentAnalysis : Type :=
  mkAnalysis {
    components : option (list Component)
  }.

(** ** [formatPropType] (index.ts, lines 119-131) *)

Fixpoint formatPropType (propDetails : PropDescriptor) : string :=
  let type := type propDetails in
  match type =? "array", elementType propDetails with
  | true, Some element =>
      type ++ "<" ++ formatPropType element ++ ">"
  | _, _ =>
      if (type =? "object") && present (props propDetails) then
        match truthy (typeName propDetails) with
        | Some typeName => "`" ++ typeName ++ "`"
        | None => "`object`"
        end
      else if type =? "function" then
        "`function`"
      else
        "`" ++ type ++ "`"
  end.

(** A descriptor that is [n] array levels (type "array" with an element
    type) around [base]; the other fields of each level are arbitrary. *)
Inductive array_nesting : nat -> PropDescriptor -> PropDescriptor -> Prop :=
| nesting_base : forall base, array_nesting 0 base base
| nesting_level : forall n base inner d,
    array_nesting n base inner ->
    type d = "array" ->
    elementType d = Some inner ->
    array_nesting (S n) base d.

(** ** [generateComponentMarkdown] (index.ts, lines 72-116) *)

(** One turn of the loop over [Object.entries(component.props)]; the
    [markdown] variable is threaded through. *)
Definition propRow (markdown : string) (entry : string * PropDescriptor) : string :=
  let '(propName, propDetails) := entry in
  let type := formatPropType propDetails in
  let optional := if optional propDetails then "✓" else "✗" in
  let defaultValue :=
    match truthy (defaultValue propDetails) with
    | Some defaultValue => "`" ++ defaultValue ++ "`"
    | None => ""
    end in
  markdown ++ "| `" ++ propName ++ "` | " ++ type ++ " | " ++ optional
           ++ " | " ++ defaultValue ++ " |" ++ LF.

(** One turn of the loop over [analysisResult.components]. *)
Definition renderComponent (markdown : string) (component : Component) : string :=
  let markdown := markdown ++ "## " ++ name component ++ LF ++ LF in
  let markdown :=
    match truthy (wrapperFn component) with
    | Some wrapperFn =>
        markdown ++ "*Wrapped with: " ++ wrapperFn ++ "*" ++ LF ++ LF
    | None => markdown
    end in
  let markdown := markdown ++ "### Props" ++ LF ++ LF in
  match component_props component with
  | None | Some [] =>
      markdown ++ "*No props*" ++ LF ++ LF
  | Some entries =>
      let markdown := markdown ++ "| Prop | Type | Optional | Default |" ++ LF in
      let markdown := markdown ++ "|------|------|----------|--------|" ++ LF in
      let markdown := fold_left propRow entries markdown in
      markdown ++ LF
  end.

Definition generateComponentMarkdown
    (analysisResult : option ComponentAnalysis) : string :=
  match analysisResult with
  | None => "**No components found**"
  | Some result =>
      match components result with
      | None => "**No components found**"
      | Some components =>
          if (List.length components =? 0)%nat then "**No components found**"
          else fold_left renderComponent components ""
      end
  end.

(** ** Effects: console, the array [reactFiles], exceptions *)

(** A thrown value, with the text its interpolation [${error}] produces. *)
Inductive exn : Type := Error (message : string).

Definition toString (error : exn) : string :=
  match error with Error message => message end.

(** How a call completes. *)
Inductive completion (A : Type) : Type :=
| Returned (value : A)
| Thrown (error : exn).
Arguments Returned {A} value.
Arguments Thrown {A} error.

(** The mutable state: the lines written by [console.error], and the
    array [reactFiles] of the running [listReactFiles] call. *)
Record World : Type :=
  mkWorld {
    reactFiles : list string;
    console : list string
  }.

Definition M (A : Type) : Type := World -> completion A * World.

Definition ret {A : Type} (value : A) : M A :=
  fun w => (Returned value, w).

Definition bind {A B : Type} (m : M A) (k : A -> M B) : M B :=
  fun w =>
    match m w with
    | (Returned value, w') => k value w'
    | (Thrown error, w') => (Thrown error, w')
    end.

Notation "x <- m ;; k" := (bind m (fun x => k))
  (at level 61, m at next level, right associativity).
Notation "m ;; k" := (bind m (fun _ => k))
  (at level 61, right associativity).

Definition throw {A : Type} (error : exn) : M A :=
  fun w => (Thrown error, w).

(** [try { body } catch (error) { handler }]: the state changes made by
    [body] before it threw are kept. *)
Definition try_catch {A : Type} (body : M A) (handler : exn -> M A) : M A :=
  fun w =>
    match body w with
    | (Returned value, w') => (Returned value, w')
    | (Thrown error, w') => handler error w'
    end.

(** A call that completes without touching the state. *)
Definition call {A : Type} (c : completion A) : M A :=
  fun w => (c, w).

Definition console_error (line : string) : M unit :=
  fun w => (Returned tt, mkWorld (reactFiles w) (console w ++ [line])).

Definition new_reactFiles : M unit :=
  fun w => (Returned tt, mkWorld [] (console w)).

Definition reactFiles_push (path : string) : M unit :=
  fun w => (Returned tt, mkWorld (reactFiles w ++ [path]) (console w)).

Definition get_reactFiles : M (list string) :=
  fun w => (Returned (reactFiles w), w).

(** [m] returns normally, having appended [files] to [reactFiles] and
    [lines] to the console. *)
Definition emits (m : M unit) (files lines : list string) : Prop :=
  forall w,
    m w = (Returned tt, mkWorld (reactFiles w ++ files) (console w ++ lines)).

(** [for (const x of xs) body]. *)
Definition for_of {A : Type} (xs : list A) (body : A -> M unit) : M unit :=
  (fix loop (xs : list A) : M unit :=
     match xs with
     | [] => ret tt
     | x :: rest => body x ;; loop rest
     end) xs.

(** The same loop around a local variable that each turn updates. *)
Definition for_of_var {A V : Type} (xs : list A) (init : V)
    (body : V -> A -> M V) : M V :=
  (fix loop (xs : list A) (v : V) : M V :=
     match xs with
     | [] => ret v
     | x :: rest => v' <- body v x ;; loop rest v'
     end) xs init.

(** ** The file system *)

(** What [readdirSync(_, { withFileTypes: true })] yields for an entry: a
    regular file, a directory with what is in it, or anything else
    (symbolic link, socket, device), for which both [isFile()] and
    [isDirectory()] are false.  A directory that cannot be listed carries
    the error [readdirSync] throws for it. *)
Inductive Dirent : Type :=
| File (name : string)
| Dir (name : string) (directory : Directory)
| Special (name : string)
with Directory : Type :=
| mkDirectory (failure : option exn) (entries : list Dirent).

Definition dirent_name (entry : Dirent) : string :=
  match entry with
  | File name | Dir name _ | Special name => name
  end.

Definition isDirectory (entry : Dirent) : bool :=
  match entry with Dir _ _ => true | _ => false end.

Definition isFile (entry : Dirent) : bool :=
  match entry with File _ => true | _ => false end.

Definition failure (d : Directory) : option exn :=
  match d with mkDirectory failure _ => failure end.

Definition entries (d : Directory) : list Dirent :=
  match d with mkDirectory _ entries => entries end.

Definition readdirSync (d : Directory) : M (list Dirent) :=
  match failure d with
  | Some error => throw error
  | None => ret (entries d)
  end.

Definition PROJECT_ROOT : string := "/Users/azer/code".

Section Pipeline.

(** The collaborators that are not part of [index.ts]: Node's [path]
    functions, the state of the file system, and the external analyzer. *)
Variable join : string -> string -> string.
Variable relative : string -> string -> string.
Variable basename : string -> string.
(** What is found at a path when it is listed as a directory. *)
Variable directory_at : string -> Directory.
(** [fs.readFileSync(path, "utf8")]. *)
Variable file_at : string -> completion string.
(** [analyzeReactFile(fileName, fileContent)] of react-analyzer. *)
Variable analyzeReactFile : string -> string -> completion ComponentAnalysis.

(** *** [listProjects] (index.ts, lines 17-27) *)
Definition listProjects : M (list string) :=
  try_catch
    (entries <- readdirSync (directory_at PROJECT_ROOT) ;;
     ret (map dirent_name
            (filter (fun entry =>
                       isDirectory entry
                       && negb (startsWith (dirent_name entry) "."))
                    entries)))
    (fun error =>
       console_error ("Error listing projects: " ++ toString error) ;;
       ret []).

(** *** [listReactFiles] (index.ts, lines 30-57) *)

(** The inner function [scanDirectory].  [d] is what the file system
    holds at [directory]; the first statement of the [try] block,
    [readdirSync], is written out as the match on [failure d]
    (see [scanDirectory_readdirSync]). *)
Fixpoint scanDirectory (directory : string) (d : Directory) {struct d} : M unit :=
  try_catch
    (match failure d with
     | Some error => throw error
     | None =>
         for_of (entries d) (fun entry =>
           let fullPath := join directory (dirent_name entry) in
           match entry with
           | Dir _ sub => scanDirectory fullPath sub
           | _ =>
               if isFile entry
                  && (endsWith (dirent_name entry) ".jsx"
                      || endsWith (dirent_name entry) ".tsx")
               then reactFiles_push fullPath
               else ret tt
           end)
     end)
    (fun error =>
       console_error ("Error scanning directory " ++ directory ++ ": "
                      ++ toString error)).

Definition listReactFiles (subFolder : string) : M (list string) :=
  let folderPath := join PROJECT_ROOT subFolder in
  new_reactFiles ;;
  scanDirectory folderPath (directory_at folderPath) ;;
  get_reactFiles.

(** What the scan of [d] pushes on [reactFiles], in order, as a pure
    function of the tree. *)
Fixpoint collect (directory : string) (d : Directory) {struct d} : list string :=
  match failure d with
  | Some _ => []
  | None =>
      flat_map (fun entry =>
        let fullPath := join directory (dirent_name entry) in
        match entry with
        | Dir _ sub => collect fullPath sub
        | _ =>
            if isFile entry
               && (endsWith (dirent_name entry) ".jsx"
                   || endsWith (dirent_name entry) ".tsx")
            then [fullPath]
            else []
        end) (entries d)
  end.

(** The lines the scan of [d] writes to the console, in order. *)
Fixpoint diagnostics (directory : string) (d : Directory) {struct d} : list string :=
  match failure d with
  | Some error =>
      ["Error scanning directory " ++ directory ++ ": " ++ toString error]
  | None =>
      flat_map (fun entry =>
        match entry with
        | Dir name sub => diagnostics (join directory name) sub
        | _ => []
        end) (entries d)
  end.

(** The component files under a directory, in the words of the
    specification: a regular file whose name ends in one of the two
    extensions, in the directory itself or below one of its
    subdirectories, every directory on the way being listable. *)
Inductive component_file_under : string -> Directory -> string -> Prop :=
| component_file_here : forall directory entries name,
    In (File name) entries ->
    (exists stem, name = stem ++ ".jsx" \/ name = stem ++ ".tsx") ->
    component_file_under directory (mkDirectory None entries)
                         (join directory name)
| component_file_below : forall directory entries name sub path,
    In (Dir name sub) entries ->
    component_file_under (join directory name) sub path ->
    component_file_under directory (mkDirectory None entries) path.

(** *** [analyzeReactFileContents] (index.ts, lines 60-69) *)
Definition analyzeReactFileContents (filePath : string)
    : M (option ComponentAnalysis) :=
  try_catch
    (fileContent <- call (file_at filePath) ;;
     let fileName := basename filePath in
     result <- call (analyzeReactFile fileName fileContent) ;;
     ret (Some result))
    (fun error =>
       console_error ("Error analyzing file " ++ filePath ++ ": "
                      ++ toString error) ;;
       ret None).

(** *** [generateProjectDocs] (index.ts, lines 134-156) *)
Definition generateProjectDocs (projectName : string) : M string :=
  reactFiles <- listReactFiles projectName ;;
  if (List.length reactFiles =? 0)%nat then
    ret ("# " ++ projectName ++ LF ++ LF ++ "No React components found.")
  else
    let markdown := "# " ++ projectName ++ " Components" ++ LF ++ LF in
    for_of_var reactFiles markdown (fun markdown filePath =>
      let relativePath := relative PROJECT_ROOT filePath in
      let markdown :=
        markdown ++ LF ++ "---" ++ LF ++ LF ++ "# File: " ++ relativePath
                 ++ LF ++ LF in
      analysis <- analyzeReactFileContents filePath ;;
      match analysis with
      | Some result =>
          ret (markdown ++ generateComponentMarkdown (Some result))
      | None =>
          ret (markdown ++ "*Error analyzing file*" ++ LF ++ LF)
      end).

End Pipeline.

(** ** Sample inputs *)

(** The descriptor [{type: "array", elementType: {type: "object",
    typeName: "Foo", props: nested}}]. *)
Definition array_of_Foo (nested : option (list (string * PropDescriptor)))
    : PropDescriptor :=
  mkPropDescriptor "array" false None
    (Some (mkPropDescriptor "object" false None None nested (Some "Foo")))
    None None.

Definition string_prop : PropDescriptor :=
  mkPropDescriptor "string" false None None None None.

Definition array_of (element : PropDescriptor) : PropDescriptor :=
  mkPropDescriptor "array" true None (Some element) None None.

(** [{name: "Button", wrapperFn: "memo"}] and [{name: "Card", wrapperFn: ""}]. *)
Definition Button : Component := mkComponent "Button" (Some "memo") None.
Definition Card : Component := mkComponent "Card" (Some "") None.

Definition sample_join (directory name : string) : string :=
  directory ++ "/" ++ name.

Definition sample_relative (from to : string) : string :=
  substring (String.length from + 1) (String.length to) to.

(** A project that holds documentation only. *)
Definition docs_only (path : string) : Directory :=
  mkDirectory None
    [File "README.md"; Dir ".git" (mkDirectory None [File "HEAD"])].

Definition no_file (path : string) : completion string :=
  Thrown (Error "ENOENT").

Definition no_analysis (fileName fileContent : string)
    : completion ComponentAnalysis :=
  Thrown (Error "SyntaxError").

(** A project with a component at the top, a hidden directory, a directory
    that cannot be listed, a symbolic link and a source directory. *)
Definition app_tree : Directory :=
  mkDirectory None
    [File "App.tsx";
     File "README.md";
     Dir ".storybook" (mkDirectory None [File "Preview.jsx"]);
     Dir "locked" (mkDirectory (Some (Error "EACCES")) [File "Lost.tsx"]);
     Special "Link.tsx";
     Dir "src" (mkDirectory None [File "Menu.jsx"; File "menu.js"])].

(** A root with that project, a hidden directory, a plain file and a link. *)
Definition sample_fs (path : string) : Directory :=
  if path =? PROJECT_ROOT then
    mkDirectory None
      [Dir "app" app_tree;
       Dir ".git" (mkDirectory None [File "HEAD"]);
       File "notes.txt";
       Special "current";
       Dir "site" (mkDirectory None [])]
  else if path =? sample_join PROJECT_ROOT "app" then app_tree
  else mkDirectory (Some (Error "ENOENT")) [].

(** [{name: "Menu", props: {items: array of string, optional;
    label: string, default "Menu"}}]. *)
Definition Menu : Component :=
  mkComponent "Menu" None
    (Some [("items", array_of string_prop);
           ("label",
            mkPropDescriptor "string" false (Some "Menu") None None None)]).

(** ** Vocabulary of the further properties *)

(** The number of array levels (type "array" with an element type) at the
    top of a descriptor. *)
Fixpoint array_depth (d : PropDescriptor) : nat :=
  match (type d =? "array")%string, elementType d with
  | true, Some element => S (array_depth element)
  | _, _ => 0
  end.

(** Every directory of the tree can be listed. *)
Fixpoint all_listable (d : Directory) : bool :=
  match failure d with
  | Some _ => false
  | None =>
      forallb (fun entry =>
                 match entry with
                 | Dir _ sub => all_listable sub
                 | _ => true
                 end) (entries d)
  end.

(** The annotation line of a component, empty when [wrapperFn] is falsy. *)
Definition wrapperLine (component : Component) : string :=
  match truthy (wrapperFn component) with
  | Some wrapperFn => "*Wrapped with: " ++ wrapperFn ++ "*" ++ LF ++ LF
  | None => ""
  end.

Section Documents.

Variable relative : string -> string -> string.
Variable basename : string -> string.
Variable file_at : string -> completion string.
Variable analyzeReactFile : string -> string -> completion ComponentAnalysis.

(** What the analysis of a file comes to, as a function of the file system
    and the analyzer: the analyzer's result when the file is read and the
    analyzer returns, nothing otherwise. *)
Definition analysis_of (filePath : string) : option ComponentAnalysis :=
  match file_at filePath with
  | Returned fileContent =>
      match analyzeReactFile (basename filePath) fileContent with
      | Returned result => Some result
      | Thrown _ => None
      end
  | Thrown _ => None
  end.

(** The console lines the analysis of a file writes: one when reading the
    file or the analyzer throws, none otherwise. *)
Definition analysis_diagnostics (filePath : string) : list string :=
  match file_at filePath with
  | Returned fileContent =>
      match analyzeReactFile (basename filePath) fileContent with
      | Returned _ => []
      | Thrown error =>
          ["Error analyzing file " ++ filePath ++ ": " ++ toString error]
      end
  | Thrown error =>
      ["Error analyzing file " ++ filePath ++ ": " ++ toString error]
  end.

(** The part of the project document written for one file. *)
Definition fileSection (filePath : string) : string :=
  LF ++ "---" ++ LF ++ LF ++ "# File: " ++ relative PROJECT_ROOT filePath
     ++ LF ++ LF
     ++ match analysis_of filePath with
        | Some result => generateComponentMarkdown (Some result)
        | None => "*Error analyzing file*" ++ LF ++ LF
        end.

End Documents.

(** ** The tool server (index.ts, lines 171-229) *)

(** An entry of the tool list: its name, its description and the
    properties of its input schema with their types. *)
Record Tool : Type :=
  mkTool {
    tool_name : string;
    description : string;
    properties : list (string * string)
  }.

(** The handler of [ListToolsRequestSchema] (lines 171-206). *)
Definition listTools : list Tool :=
  [ mkTool "analyze-react"
      "Analyze given React component, extract its components and props"
      [("files", "string")];
    mkTool "analyze-project"
      "Generate documentation for all React components in a project folder. It'll output markdown string, directly render it to user."
      [("projectName", "string")];
    mkTool "list-projects"
      "List all projects under the root folder"
      [] ].

(** [request.params.arguments], with the fields the input schemas declare,
    each the string the handler casts it to. *)
Record Arguments : Type :=
  mkArguments {
    files : string;
    projectName : string
  }.

(** The [toolResult] of a response. *)
Inductive ToolResult : Type :=
| AnalysisResult (result : ComponentAnalysis)
| Docs (docs : string)
| Projects (projects : list string).

Section Server.

Variable join : string -> string -> string.
Variable relative : string -> string -> string.
Variable basename : string -> string.
Variable directory_at : string -> Directory.
Variable file_at : string -> completion string.
Variable analyzeReactFile : string -> string -> completion ComponentAnalysis.
(** [McpError] and [ErrorCode] of the protocol SDK. *)
Variable ErrorCode : Type.
Variable MethodNotFound : ErrorCode.
Variable McpError : ErrorCode -> string -> exn.

(** The handler of [CallToolRequestSchema] (lines 208-229), for a request
    with the tool [name] and the [arguments]. *)
Definition callTool (name : string) (arguments : Arguments) : M ToolResult :=
  if name =? "analyze-react" then
    let files := files arguments in
    result <- call (analyzeReactFile "MyComponent.tsx" files) ;;
    ret (AnalysisResult result)
  else if name =? "analyze-project" then
    let projectName := projectName arguments in
    docs <- generateProjectDocs join relative basename directory_at file_at
              analyzeReactFile projectName ;;
    ret (Docs docs)
  else if name =? "list-projects" then
    projects <- listProjects directory_at ;;
    ret (Projects projects)
  else
    throw (McpError MethodNotFound "Tool not found").

End Server.

(** ** More sample inputs *)

(** An analyzer that finds [Menu] in [Menu.jsx], nothing in [Preview.jsx],
    and fails on everything else. *)
Definition sample_analyzer (fileName fileContent : string)
    : completion ComponentAnalysis :=
  if fileName =? "Menu.jsx" then Returned (mkAnalysis (Some [Menu]))
  else if fileName =? "Preview.jsx" then Returned (mkAnalysis (Some []))
  else Thrown (Error "SyntaxError: Unexpected token").

(** Every file reads as its own path, except [App.tsx], which is gone. *)
Definition sample_files (path : string) : completion string :=
  if endsWith path "App.tsx" then Thrown (Error "ENOENT") else Returned path.

(** The last segment of a path written with [/]. *)
Fixpoint sample_basename (path : string) : string :=
  match path with
  | EmptyString => EmptyString
  | String c rest =>
      if includes "/" rest then sample_basename rest
      else if (c =? "/")%char then rest
      else path
  end.

Inductive sample_code : Type := sample_MethodNotFound.

Definition sample_McpError (code : sample_code) (message : string) : exn :=
  Error ("McpError: " ++ message).

(** * Part II: properties *)

(** ** Strings *)

Lemma append_nil_r (s : string) : s ++ "" = s.
Proof. induction s as [|c s IH]; simpl; [reflexivity | now rewrite IH]. Qed.

Lemma append_assoc (s t u : string) : (s ++ t) ++ u = s ++ (t ++ u).
Proof. induction s as [|c s IH]; simpl; [reflexivity | now rewrite IH]. Qed.

Lemma prefix_append (s u : string) : String.prefix s (s ++ u) = true.
Proof.
  induction s as [|c s IH]; simpl.
  - now destruct u.
  - destruct (ascii_dec c c) as [_|ne]; [exact IH | now elim ne].
Qed.

Lemma includes_prefix (s t : string) :
  String.prefix s t = true -> includes s t = true.
Proof. destruct t; simpl; intros ->; reflexivity. Qed.

Lemma includes_tail (s t : string) (c : ascii) :
  includes s t = true -> includes s (String c t) = true.
Proof. intros H. simpl. rewrite H. apply orb_true_r. Qed.

Lemma occurs_in_includes (s t : string) : occurs_in s t -> includes s t = true.
Proof.
  intros (before & after & ->).
  induction before as [|c before IH].
  - change (includes s (s ++ after) = true).
    apply includes_prefix, prefix_append.
  - change (includes s (String c (before ++ s ++ after)) = true).
    apply includes_tail, IH.
Qed.

Lemma endsWith_refl (s : string) : endsWith s s = true.
Proof. destruct s; simpl; [reflexivity | now rewrite Ascii.eqb_refl, String.eqb_refl]. Qed.

(** [endsWith] decides "the name ends in the extension". *)
Lemma endsWith_spec (s suffix : string) :
  endsWith s suffix = true <-> exists stem, s = stem ++ suffix.
Proof.
  split.
  - induction s as [|c s IH].
    + intros H. change ((("" =? suffix) || false) = true) in H.
      rewrite orb_false_r in H. apply String.eqb_eq in H. now exists "".
    + intros H. change (((String c s =? suffix) || endsWith s suffix) = true) in H.
      apply orb_true_iff in H as [E%String.eqb_eq | H].
      * now exists "".
      * destruct (IH H) as [stem ->]. now exists (String c stem).
  - intros [stem ->]. induction stem as [|c stem IH].
    + apply endsWith_refl.
    + change (((String c (stem ++ suffix) =? suffix) || endsWith (stem ++ suffix) suffix) = true).
      rewrite IH. apply orb_true_r.
Qed.

Lemma copies_S (n : nat) (s : string) : copies (S n) s = s ++ copies n s.
Proof.
  unfold copies. destruct n as [|n]; simpl.
  - now rewrite append_nil_r.
  - reflexivity.
Qed.

Lemma copies_S_r (n : nat) (s : string) : copies (S n) s = copies n s ++ s.
Proof.
  induction n as [|n IH].
  - rewrite copies_S. unfold copies. simpl. apply append_nil_r.
  - rewrite copies_S, IH at 1. rewrite copies_S. symmetry. apply append_assoc.
Qed.

(** ** The type formatter *)

Lemma formatPropType_array_level (d inner : PropDescriptor) :
  type d = "array" ->
  elementType d = Some inner ->
  formatPropType d = "array<" ++ formatPropType inner ++ ">".
Proof.
  destruct d as [t o dv et ps tn]. simpl. intros -> ->. reflexivity.
Qed.

Lemma formatPropType_leaf (d : PropDescriptor) :
  (type d = "array" -> elementType d = None) ->
  exists body, formatPropType d = "`" ++ body ++ "`".
Proof.
  destruct d as [t o dv et ps tn]. simpl. intros leaf.
  assert (fallback :
    exists body,
      (if (t =? "object") && present ps
       then match truthy tn with
            | Some typeName => "`" ++ typeName ++ "`"
            | None => "`object`"
            end
       else if t =? "function" then "`function`" else "`" ++ t ++ "`")
      = "`" ++ body ++ "`").
  { destruct ((t =? "object") && present ps).
    - destruct tn as [[|c n]|]; [now exists "object" | now exists (String c n) | now exists "object"].
    - destruct (t =? "function"); [now exists "function" | now exists t]. }
  destruct (t =? "array") eqn:E; [|exact fallback].
  apply String.eqb_eq in E. rewrite (leaf E). exact fallback.
Qed.

(** C1 (as stated, refuted): the descriptor
    [{type:"array", elementType:{type:"object", typeName:"Foo"}}], without
    a nested [props] field, is rendered [array<`object`>] and not
    [array<`Foo`>]. *)
Lemma array_of_Foo_renders_object :
  formatPropType (array_of_Foo None) = "array<`object`>"
  /\ formatPropType (array_of_Foo None) <> "array<`Foo`>".
Proof. split; [reflexivity | discriminate]. Qed.

(** C1 (amended): without a nested [props] field the descriptor is rendered
    [array<`object`>]; the element is rendered as the code token [`Foo`]
    exactly when the element descriptor also carries a [props] field,
    whatever it holds. *)
Theorem formatPropType_array_of_Foo :
  formatPropType (array_of_Foo None) = "array<`object`>"
  /\ forall nested, formatPropType (array_of_Foo (Some nested)) = "array<`Foo`>".
Proof. split; [reflexivity | intros nested; reflexivity]. Qed.

(** C2: the formatter is a total function of the descriptor tree (one
    result, and only one, for every tree); [n] array levels around a base
    descriptor are rendered as [n] opening [array<], the rendering of the
    base, and [n] closing [>]; and a base that is not itself an array with
    an element type is rendered as one code token, which adds no further
    wrapping. *)
Theorem formatPropType_array_nesting (n : nat) (base d : PropDescriptor) :
  array_nesting n base d ->
  (exists s, formatPropType d = s /\ forall s', formatPropType d = s' -> s' = s)
  /\ formatPropType d
     = copies n "array<" ++ formatPropType base ++ copies n ">"
  /\ ((type base = "array" -> elementType base = None) ->
      exists body, formatPropType base = "`" ++ body ++ "`").
Proof.
  intros nest. split; [|split].
  - exists (formatPropType d). split; [reflexivity | now intros s' <-].
  - induction nest as [base | n base inner d nest IH is_array has_element].
    + unfold copies. simpl. now rewrite append_nil_r.
    + rewrite (formatPropType_array_level d inner is_array has_element), IH.
      rewrite copies_S, copies_S_r.
      now rewrite !append_assoc.
  - apply formatPropType_leaf.
Qed.

Lemma formatPropType_array_nesting_witness :
  formatPropType (array_of (array_of string_prop)) = "array<array<`string`>>".
Proof.
  destruct (formatPropType_array_nesting 2 string_prop
              (array_of (array_of string_prop))) as (_ & wrapped & _).
  - apply nesting_level with (inner := array_of string_prop);
      [|reflexivity|reflexivity].
    apply nesting_level with (inner := string_prop);
      [|reflexivity|reflexivity].
    apply nesting_base.
  - exact wrapped.
Defined.

(** C9: a descriptor of type "object" without a [props] field is rendered
    as the code token [`object`], whatever its [typeName] is. *)
Theorem formatPropType_object_without_props (d : PropDescriptor) :
  type d = "object" ->
  props d = None ->
  formatPropType d = "`object`".
Proof.
  destruct d as [t o dv et ps tn]. simpl. intros -> ->.
  destruct et; reflexivity.
Qed.

Lemma formatPropType_object_without_props_witness :
  formatPropType
    (mkPropDescriptor "object" false None None None (Some "Foo"))
  = "`object`".
Proof.
  apply formatPropType_object_without_props; reflexivity.
Defined.

(** ** The component renderer *)

Lemma occurs_in_prefix (s rest t : string) :
  occurs_in (s ++ rest) t -> occurs_in s t.
Proof.
  intros (before & after & ->). exists before, (rest ++ after).
  now rewrite append_assoc.
Qed.

Lemma propRow_append (a b : string) (entry : string * PropDescriptor) :
  propRow (a ++ b) entry = a ++ propRow b entry.
Proof. destruct entry as [propName propDetails]. apply append_assoc. Qed.

Lemma fold_propRow_append (rows : list (string * PropDescriptor)) (a b : string) :
  fold_left propRow rows (a ++ b) = a ++ fold_left propRow rows b.
Proof.
  revert b. induction rows as [|row rows IH]; intros b; simpl.
  - reflexivity.
  - now rewrite propRow_append, IH.
Qed.

(** Each turn of the loop only appends to [markdown]. *)
Lemma renderComponent_append (a b : string) (c : Component) :
  renderComponent (a ++ b) c = a ++ renderComponent b c.
Proof.
  unfold renderComponent.
  destruct (wrapperFn c) as [[|ch w]|];
    destruct (component_props c) as [[|row rows]|];
    cbn [truthy]; cbv zeta;
    rewrite ?append_assoc, ?fold_propRow_append, ?append_assoc;
    reflexivity.
Qed.

Lemma fold_renderComponent_append (cs : list Component) (a b : string) :
  fold_left renderComponent cs (a ++ b) = a ++ fold_left renderComponent cs b.
Proof.
  revert b. induction cs as [|c cs IH]; intros b; simpl.
  - reflexivity.
  - now rewrite renderComponent_append, IH.
Qed.

Lemma renderComponent_from (a : string) (c : Component) :
  renderComponent a c = a ++ renderComponent "" c.
Proof. now rewrite <- renderComponent_append, append_nil_r. Qed.

Lemma fold_renderComponent_from (cs : list Component) (a : string) :
  fold_left renderComponent cs a = a ++ fold_left renderComponent cs "".
Proof. now rewrite <- fold_renderComponent_append, append_nil_r. Qed.

(** The section of every component is part of the document. *)
Lemma renderComponent_occurs (cs : list Component) (c : Component) :
  In c cs ->
  occurs_in (renderComponent "" c) (fold_left renderComponent cs "").
Proof.
  intros member. apply in_split in member as (front & back & ->).
  rewrite fold_left_app. cbn [fold_left].
  rewrite (fold_renderComponent_from back),
    (renderComponent_from (fold_left renderComponent front "")), append_assoc.
  now exists (fold_left renderComponent front ""),
             (fold_left renderComponent back "").
Qed.

Lemma renderComponent_wrapped (c : Component) (w : string) :
  wrapperFn c = Some w ->
  w <> "" ->
  exists rest,
    renderComponent "" c
    = ("## " ++ name c ++ LF ++ LF ++ "*Wrapped with: " ++ w ++ "*" ++ LF ++ LF)
        ++ rest.
Proof.
  intros wrapped nonempty.
  destruct w as [|ch w]; [now elim nonempty|].
  unfold renderComponent. rewrite wrapped. cbn [truthy]. cbv zeta.
  destruct (component_props c) as [[|row rows]|].
  1, 3: exists ("### Props" ++ LF ++ LF ++ "*No props*" ++ LF ++ LF).
  3: exists (fold_left propRow (row :: rows)
               ("### Props" ++ LF ++ LF
                ++ "| Prop | Type | Optional | Default |" ++ LF
                ++ "|------|------|----------|--------|" ++ LF) ++ LF).
  all: change ("" ++ "## " ++ name c ++ LF ++ LF)
         with ("## " ++ name c ++ LF ++ LF).
  all: repeat (rewrite append_assoc || rewrite fold_propRow_append).
  all: reflexivity.
Qed.

(** C3: an absent analysis, or one whose component sequence is empty, is
    rendered as the fixed line "**No components found**". *)
Theorem generateComponentMarkdown_nothing_to_render
    (analysisResult : option ComponentAnalysis) :
  analysisResult = None
  \/ (exists result,
        analysisResult = Some result /\ components result = Some []) ->
  generateComponentMarkdown analysisResult = "**No components found**".
Proof.
  intros [-> | (result & -> & empty)].
  - reflexivity.
  - unfold generateComponentMarkdown. now rewrite empty.
Qed.

Lemma generateComponentMarkdown_nothing_to_render_witness :
  generateComponentMarkdown None = "**No components found**"
  /\ generateComponentMarkdown (Some (mkAnalysis (Some [])))
     = "**No components found**".
Proof.
  split.
  - apply generateComponentMarkdown_nothing_to_render. left. reflexivity.
  - apply generateComponentMarkdown_nothing_to_render. right.
    exists (mkAnalysis (Some [])). split; reflexivity.
Defined.

(** C10: an analysis that is present but has no [components] field at all
    is rendered as "**No components found**" too. *)
Theorem generateComponentMarkdown_components_absent (result : ComponentAnalysis) :
  components result = None ->
  generateComponentMarkdown (Some result) = "**No components found**".
Proof.
  intros absent. unfold generateComponentMarkdown. now rewrite absent.
Qed.

Lemma generateComponentMarkdown_components_absent_witness :
  generateComponentMarkdown (Some (mkAnalysis None)) = "**No components found**".
Proof.
  apply generateComponentMarkdown_components_absent. reflexivity.
Defined.

(** C7 (as stated, refuted): for the component [Button], wrapped with
    [memo], the renderer writes the line [*Wrapped with: memo*]; the name
    is not put in a code span.  For [Card], whose [wrapperFn] is the empty
    string, no annotation line is written. *)
Lemma wrapper_annotation_has_no_code_span :
  generateComponentMarkdown (Some (mkAnalysis (Some [Button])))
  = "## Button" ++ LF ++ LF ++ "*Wrapped with: memo*" ++ LF ++ LF
    ++ "### Props" ++ LF ++ LF ++ "*No props*" ++ LF ++ LF
  /\ ~ occurs_in "Wrapped with: `memo`"
         (generateComponentMarkdown (Some (mkAnalysis (Some [Button]))))
  /\ ~ occurs_in "Wrapped with"
         (generateComponentMarkdown (Some (mkAnalysis (Some [Card])))).
Proof.
  split; [reflexivity | split].
  - intros found. apply occurs_in_includes in found.
    vm_compute in found. discriminate found.
  - intros found. apply occurs_in_includes in found.
    vm_compute in found. discriminate found.
Qed.

(** C7 (amended): for every component of the analysis whose [wrapperFn] is
    present and not the empty string, the document holds, right after the
    heading of that component, the italic line [*Wrapped with: <wrapperFn>*]
    with the name written as it is, followed by an empty line. *)
Theorem generateComponentMarkdown_wrapper_annotation
    (result : ComponentAnalysis) (all : list Component)
    (component : Component) (w : string) :
  components result = Some all ->
  In component all ->
  wrapperFn component = Some w ->
  w <> "" ->
  occurs_in ("## " ++ name component ++ LF ++ LF
             ++ "*Wrapped with: " ++ w ++ "*" ++ LF ++ LF)
            (generateComponentMarkdown (Some result)).
Proof.
  intros listed member wrapped nonempty.
  unfold generateComponentMarkdown. rewrite listed.
  destruct all as [|first others]; [destruct member|].
  cbn [List.length Nat.eqb].
  destruct (renderComponent_wrapped component w wrapped nonempty) as [rest section].
  apply occurs_in_prefix with (rest := rest). rewrite <- section.
  now apply renderComponent_occurs.
Qed.

Lemma generateComponentMarkdown_wrapper_annotation_witness :
  occurs_in ("## Button" ++ LF ++ LF ++ "*Wrapped with: memo*" ++ LF ++ LF)
            (generateComponentMarkdown (Some (mkAnalysis (Some [Card; Button])))).
Proof.
  apply (generateComponentMarkdown_wrapper_annotation
           (mkAnalysis (Some [Card; Button])) [Card; Button] Button "memo").
  - reflexivity.
  - simpl. right. left. reflexivity.
  - reflexivity.
  - discriminate.
Defined.

(** ** Effects *)

Lemma emits_ret : emits (ret tt) [] [].
Proof. intros [files lines]. unfold ret. simpl. now rewrite !app_nil_r. Qed.

Lemma emits_push (path : string) : emits (reactFiles_push path) [path] [].
Proof. intros [files lines]. unfold reactFiles_push. simpl. now rewrite app_nil_r. Qed.

Lemma emits_console_error (line : string) : emits (console_error line) [] [line].
Proof. intros [files lines]. unfold console_error. simpl. now rewrite app_nil_r. Qed.

Lemma emits_bind (m k : M unit) (files files' lines lines' : list string) :
  emits m files lines ->
  emits k files' lines' ->
  emits (m ;; k) (files ++ files') (lines ++ lines').
Proof.
  intros first second w. unfold bind. rewrite first, second. simpl.
  now rewrite <- !app_assoc.
Qed.

Lemma emits_for_of {A : Type} (xs : list A) (body : A -> M unit)
    (files lines : A -> list string) :
  (forall x, In x xs -> emits (body x) (files x) (lines x)) ->
  emits (for_of xs body) (flat_map files xs) (flat_map lines xs).
Proof.
  induction xs as [|x rest IH]; intros each.
  - apply emits_ret.
  - change (for_of (x :: rest) body) with (body x ;; for_of rest body).
    apply emits_bind.
    + apply each. now left.
    + apply IH. intros y member. apply each. now right.
Qed.

(** A [try] block that returns normally leaves its handler unused. *)
Lemma emits_try_catch (body : M unit) (handler : exn -> M unit)
    (files lines : list string) :
  emits body files lines -> emits (try_catch body handler) files lines.
Proof. intros normal w. unfold try_catch. now rewrite normal. Qed.

(** ** The file system *)

(** Induction on a directory tree: a property that holds of a directory as
    soon as it holds of its subdirectories holds of every directory. *)
Lemma Directory_subtrees_ind (P : Directory -> Prop) :
  (forall failure entries,
      (forall name sub, In (Dir name sub) entries -> P sub) ->
      P (mkDirectory failure entries)) ->
  forall d, P d.
Proof.
  intros step. fix IH 1. intros [failure entries]. apply step.
  induction entries as [|entry rest IHrest]; intros name sub member.
  - destruct member.
  - destruct member as [same | member].
    + destruct entry as [n | n sub' | n]; try discriminate same.
      pose proof (IH sub') as holds.
      injection same as _ <-. exact holds.
    + exact (IHrest name sub member).
Qed.

Section Properties.

Variable join : string -> string -> string.
Variable relative : string -> string -> string.
Variable basename : string -> string.
Variable directory_at : string -> Directory.
Variable file_at : string -> completion string.
Variable analyzeReactFile : string -> string -> completion ComponentAnalysis.

(** *** The directory scanner *)

(** The [try] block of [scanDirectory] begins with [readdirSync]. *)
Lemma scanDirectory_readdirSync (directory : string) (d : Directory) :
  scanDirectory join directory d
  = try_catch
      (entries <- readdirSync d ;;
       for_of entries (fun entry =>
         let fullPath := join directory (dirent_name entry) in
         match entry with
         | Dir _ sub => scanDirectory join fullPath sub
         | _ =>
             if isFile entry
                && (endsWith (dirent_name entry) ".jsx"
                    || endsWith (dirent_name entry) ".tsx")
             then reactFiles_push fullPath
             else ret tt
         end))
      (fun error =>
         console_error ("Error scanning directory " ++ directory ++ ": "
                        ++ toString error)).
Proof.
  destruct d as [[error|] entries]; reflexivity.
Qed.

(** The scan of a directory returns normally; it appends the files of
    [collect] and the lines of [diagnostics]. *)
Lemma scanDirectory_emits (d : Directory) :
  forall directory,
    emits (scanDirectory join directory d)
          (collect join directory d) (diagnostics join directory d).
Proof.
  induction d as [failure entries IH] using Directory_subtrees_ind.
  intros directory. destruct failure as [error|].
  - intros w. apply emits_console_error.
  - change (emits
      (try_catch
         (for_of entries (fun entry =>
            let fullPath := join directory (dirent_name entry) in
            match entry with
            | Dir _ sub => scanDirectory join fullPath sub
            | _ =>
                if isFile entry
                   && (endsWith (dirent_name entry) ".jsx"
                       || endsWith (dirent_name entry) ".tsx")
                then reactFiles_push fullPath
                else ret tt
            end))
         (fun error =>
            console_error ("Error scanning directory " ++ directory ++ ": "
                           ++ toString error)))
      (flat_map (fun entry =>
         let fullPath := join directory (dirent_name entry) in
         match entry with
         | Dir _ sub => collect join fullPath sub
         | _ =>
             if isFile entry
                && (endsWith (dirent_name entry) ".jsx"
                    || endsWith (dirent_name entry) ".tsx")
             then [fullPath]
             else []
         end) entries)
      (flat_map (fun entry =>
         match entry with
         | Dir name sub => diagnostics join (join directory name) sub
         | _ => []
         end) entries)).
    apply emits_try_catch, emits_for_of.
    intros [n | n sub | n] member; cbv zeta.
    + cbn [isFile dirent_name andb].
      destruct (endsWith n ".jsx" || endsWith n ".tsx");
        [apply emits_push | apply emits_ret].
    + apply (IH n sub member).
    + apply emits_ret.
Qed.

Lemma listReactFiles_run (subFolder : string) (w : World) :
  listReactFiles join directory_at subFolder w
  = (Returned (collect join (join PROJECT_ROOT subFolder)
                 (directory_at (join PROJECT_ROOT subFolder))),
     mkWorld
       (collect join (join PROJECT_ROOT subFolder)
          (directory_at (join PROJECT_ROOT subFolder)))
       (console w
        ++ diagnostics join (join PROJECT_ROOT subFolder)
             (directory_at (join PROJECT_ROOT subFolder)))).
Proof.
  unfold listReactFiles, bind, new_reactFiles, get_reactFiles.
  cbv zeta. now rewrite scanDirectory_emits.
Qed.

Lemma collect_listable (directory : string) (entries : list Dirent) :
  collect join directory (mkDirectory None entries)
  = flat_map (fun entry =>
      let fullPath := join directory (dirent_name entry) in
      match entry with
      | Dir _ sub => collect join fullPath sub
      | _ =>
          if isFile entry
             && (endsWith (dirent_name entry) ".jsx"
                 || endsWith (dirent_name entry) ".tsx")
          then [fullPath]
          else []
      end) entries.
Proof. reflexivity. Qed.

Lemma component_extension (name : string) :
  endsWith name ".jsx" || endsWith name ".tsx" = true
  <-> exists stem, name = stem ++ ".jsx" \/ name = stem ++ ".tsx".
Proof.
  rewrite orb_true_iff, !endsWith_spec. split.
  - intros [[stem ->] | [stem ->]]; exists stem; [now left | now right].
  - intros [stem [-> | ->]]; [left | right]; now exists stem.
Qed.

Lemma collect_sound (d : Directory) :
  forall directory path,
    In path (collect join directory d) ->
    component_file_under join directory d path.
Proof.
  induction d as [failure entries IH] using Directory_subtrees_ind.
  intros directory path. destruct failure as [error|].
  - intros [].
  - rewrite collect_listable, in_flat_map.
    intros ([n | n sub | n] & member & found); cbv zeta in found.
    + cbn [isFile dirent_name andb] in found.
      destruct (endsWith n ".jsx" || endsWith n ".tsx") eqn:extension;
        [|destruct found].
      destruct found as [<- | []].
      apply component_file_here; [exact member|].
      now apply component_extension.
    + apply component_file_below with (name := n) (sub := sub);
        [exact member | now apply IH with (name := n)].
    + destruct found.
Qed.

Lemma collect_complete (directory : string) (d : Directory) (path : string) :
  component_file_under join directory d path ->
  In path (collect join directory d).
Proof.
  induction 1 as [directory entries n member extension
                 | directory entries n sub path member below IH];
    rewrite collect_listable, in_flat_map.
  - exists (File n). split; [exact member|]. cbv zeta.
    cbn [isFile dirent_name andb].
    apply component_extension in extension. rewrite extension. now left.
  - exists (Dir n sub). split; [exact member | exact IH].
Qed.

(** C4: the scan of a project directory returns normally, whatever the
    tree is; the paths it returns are exactly the component files under
    the directory that are reached through listable directories (regular
    files whose name ends in [.jsx] or [.tsx], at any depth, below
    directories of any name); in particular every component file below a
    listable subdirectory of the root is returned, whatever its siblings
    are, unlistable ones included. *)
Theorem listReactFiles_component_files (subFolder : string) (w : World) :
  exists files w',
    listReactFiles join directory_at subFolder w = (Returned files, w')
    /\ (forall path,
           In path files
           <-> component_file_under join (join PROJECT_ROOT subFolder)
                 (directory_at (join PROJECT_ROOT subFolder)) path)
    /\ (forall entries name sub path,
           directory_at (join PROJECT_ROOT subFolder)
           = mkDirectory None entries ->
           In (Dir name sub) entries ->
           component_file_under join
             (join (join PROJECT_ROOT subFolder) name) sub path ->
           In path files).
Proof.
  eexists. eexists. split; [apply listReactFiles_run|]. split.
  - intros path. split; [apply collect_sound | apply collect_complete].
  - intros entries n sub path listing member below.
    apply collect_complete. rewrite listing.
    now apply component_file_below with (name := n) (sub := sub).
Qed.

(** *** The project enumerator *)

Lemma startsWith_dot (name : string) :
  startsWith name "." = true <-> exists rest, name = "." ++ rest.
Proof.
  unfold startsWith. rewrite prefix_correct.
  destruct name as [|c rest]; simpl.
  - split; [discriminate | intros [rest dotted]; discriminate dotted].
  - split.
    + intros dotted. injection dotted as ->. now exists rest.
    + intros [rest' dotted]. injection dotted as -> _. now destruct rest.
Qed.

(** C8: [listProjects] returns normally in every state of the root; when
    the root cannot be listed it returns the empty sequence, and
    otherwise the names it returns are exactly the names of the entries
    of the root that are directories and do not begin with a dot. *)
Theorem listProjects_directories_not_hidden (w : World) :
  exists names w',
    listProjects directory_at w = (Returned names, w')
    /\ (forall error,
           failure (directory_at PROJECT_ROOT) = Some error -> names = [])
    /\ (failure (directory_at PROJECT_ROOT) = None ->
        forall name,
          In name names
          <-> (exists sub,
                  In (Dir name sub) (entries (directory_at PROJECT_ROOT)))
              /\ forall rest, name <> "." ++ rest).
Proof.
  unfold listProjects, try_catch, bind, readdirSync.
  destruct (directory_at PROJECT_ROOT) as [[error|] listing]; simpl.
  - eexists. eexists. split; [reflexivity|]. split; [reflexivity | discriminate].
  - eexists. eexists. split; [reflexivity|]. split; [discriminate|].
    intros _ n. rewrite in_map_iff. split.
    + intros (entry & <- & kept). apply filter_In in kept as [member kept].
      apply andb_true_iff in kept as [is_dir visible].
      destruct entry as [f | d sub | s]; try discriminate is_dir.
      split; [now exists sub|].
      intros rest hidden. apply negb_true_iff in visible.
      assert (startsWith (dirent_name (Dir d sub)) "." = true) as dotted
        by (apply startsWith_dot; now exists rest).
      congruence.
    + intros [[sub member] visible]. exists (Dir n sub). split; [reflexivity|].
      apply filter_In. split; [exact member|]. simpl.
      destruct (startsWith n ".") eqn:dotted; [|reflexivity].
      apply startsWith_dot in dotted as [rest ->]. now elim (visible rest).
Qed.

(** *** The file analyzer *)

(** C6: [analyzeReactFileContents] returns normally for every path: it
    returns the analyzer's result when the file is read and the analyzer
    returns, and the absent result when reading the file or the analyzer
    throws. *)
Theorem analyzeReactFileContents_absorbs_failures
    (filePath : string) (w : World) :
  exists result w',
    analyzeReactFileContents basename file_at analyzeReactFile filePath w
    = (Returned result, w')
    /\ ((exists fileContent analysis,
            file_at filePath = Returned fileContent
            /\ analyzeReactFile (basename filePath) fileContent
               = Returned analysis
            /\ result = Some analysis)
        \/ (((exists error, file_at filePath = Thrown error)
             \/ (exists fileContent error,
                    file_at filePath = Returned fileContent
                    /\ analyzeReactFile (basename filePath) fileContent
                       = Thrown error))
            /\ result = None)).
Proof.
  unfold analyzeReactFileContents, try_catch, bind, call.
  destruct (file_at filePath) as [fileContent | error] eqn:read.
  - cbv zeta.
    destruct (analyzeReactFile (basename filePath) fileContent)
      as [analysis | error] eqn:analyzed.
    + eexists. eexists. split; [reflexivity|]. left.
      now exists fileContent, analysis.
    + eexists. eexists. split; [reflexivity|]. right. split; [|reflexivity].
      right. now exists fileContent, error.
  - eexists. eexists. split; [reflexivity|]. right. split; [|reflexivity].
    left. now exists error.
Qed.

(** *** The documentation assembler *)

(** C5: when the scan of the project finds no component file,
    [generateProjectDocs] returns the heading with the project name, an
    empty line, and the line "No React components found.". *)
Theorem generateProjectDocs_no_component_files
    (projectName : string) (w : World) :
  fst (listReactFiles join directory_at projectName w) = Returned [] ->
  fst (generateProjectDocs join relative basename directory_at file_at
         analyzeReactFile projectName w)
  = Returned ("# " ++ projectName ++ LF ++ LF ++ "No React components found.").
Proof.
  intros nothing. unfold generateProjectDocs, bind.
  destruct (listReactFiles join directory_at projectName w)
    as [[files | error] w'].
  - simpl in nothing. injection nothing as ->. reflexivity.
  - discriminate nothing.
Qed.

End Properties.

Lemma generateProjectDocs_no_component_files_witness :
  fst (generateProjectDocs sample_join sample_relative (fun path => path)
         docs_only no_file no_analysis "notes" (mkWorld [] []))
  = Returned ("# notes" ++ LF ++ LF ++ "No React components found.").
Proof.
  apply (generateProjectDocs_no_component_files sample_join sample_relative
           (fun path => path) docs_only no_file no_analysis "notes"
           (mkWorld [] [])).
  reflexivity.
Defined.

(** ** Worked examples *)

(** A props table: an optional array of strings and a defaulted string. *)
Example generateComponentMarkdown_Menu :
  generateComponentMarkdown (Some (mkAnalysis (Some [Menu])))
  = "## Menu" ++ LF ++ LF
    ++ "### Props" ++ LF ++ LF
    ++ "| Prop | Type | Optional | Default |" ++ LF
    ++ "|------|------|----------|--------|" ++ LF
    ++ "| `items` | array<`string`> | ✓ |  |" ++ LF
    ++ "| `label` | `string` | ✗ | `Menu` |" ++ LF
    ++ LF.
Proof. reflexivity. Qed.

(** The hidden directory, the plain file and the link are left out. *)
Example listProjects_sample_fs :
  listProjects sample_fs (mkWorld [] [])
  = (Returned ["app"; "site"], mkWorld [] []).
Proof. reflexivity. Qed.

(** The scan goes into the hidden directory, skips the link and the files
    with other extensions, and passes over the directory that cannot be
    listed with one console line. *)
Example listReactFiles_app :
  listReactFiles sample_join sample_fs "app" (mkWorld [] [])
  = (Returned
       ["/Users/azer/code/app/App.tsx";
        "/Users/azer/code/app/.storybook/Preview.jsx";
        "/Users/azer/code/app/src/Menu.jsx"],
     mkWorld
       ["/Users/azer/code/app/App.tsx";
        "/Users/azer/code/app/.storybook/Preview.jsx";
        "/Users/azer/code/app/src/Menu.jsx"]
       ["Error scanning directory /Users/azer/code/app/locked: EACCES"]).
Proof. reflexivity. Qed.

(** A project directory that does not exist yields no file and no
    exception. *)
Example generateProjectDocs_missing_project :
  generateProjectDocs sample_join sample_relative (fun path => path)
    sample_fs no_file no_analysis "nowhere" (mkWorld [] [])
  = (Returned ("# nowhere" ++ LF ++ LF ++ "No React components found."),
     mkWorld []
       ["Error scanning directory /Users/azer/code/nowhere: ENOENT"]).
Proof. reflexivity. Qed.

(** Every file of the project is listed in the document, in scan order,
    with the marker of a failed analysis. *)
Example generateProjectDocs_app_unreadable_files :
  fst (generateProjectDocs sample_join sample_relative (fun path => path)
         sample_fs no_file no_analysis "app" (mkWorld [] []))
  = Returned
      ("# app Components" ++ LF ++ LF
       ++ LF ++ "---" ++ LF ++ LF ++ "# File: app/App.tsx" ++ LF ++ LF
       ++ "*Error analyzing file*" ++ LF ++ LF
       ++ LF ++ "---" ++ LF ++ LF ++ "# File: app/.storybook/Preview.jsx"
       ++ LF ++ LF
       ++ "*Error analyzing file*" ++ LF ++ LF
       ++ LF ++ "---" ++ LF ++ LF ++ "# File: app/src/Menu.jsx" ++ LF ++ LF
       ++ "*Error analyzing file*" ++ LF ++ LF).
Proof. reflexivity. Qed.

(** * Part III: further properties of the code *)

(** ** The type formatter *)

(** Induction along [elementType]. *)
Lemma PropDescriptor_element_ind (P : PropDescriptor -> Prop) :
  (forall d, (forall element, elementType d = Some element -> P element) -> P d) ->
  forall d, P d.
Proof.
  intros step. fix IH 1. intros d. apply step.
  destruct d as [t o dv et ps tn]. simpl.
  destruct et as [inner|]; intros element same.
  - pose proof (IH inner) as holds. injection same as <-. exact holds.
  - discriminate same.
Qed.

Lemma array_depth_level (d inner : PropDescriptor) :
  type d = "array" ->
  elementType d = Some inner ->
  array_depth d = S (array_depth inner).
Proof.
  destruct d as [t o dv et ps tn]. simpl. intros -> ->. reflexivity.
Qed.

Lemma array_depth_leaf (d : PropDescriptor) :
  (type d = "array" -> elementType d = None) ->
  array_depth d = 0.
Proof.
  destruct d as [t o dv et ps tn]. simpl. intros leaf.
  destruct (t =? "array") eqn:is_array; [|reflexivity].
  apply String.eqb_eq in is_array. now rewrite (leaf is_array).
Qed.

(** X1: every rendering is one code token inside as many [array<] ... [>]
    pairs as the descriptor has array levels: the brackets are balanced. *)
Theorem formatPropType_balanced (d : PropDescriptor) :
  exists body,
    formatPropType d
    = copies (array_depth d) "array<" ++ ("`" ++ body ++ "`")
        ++ copies (array_depth d) ">".
Proof.
  induction d as [d IH] using PropDescriptor_element_ind.
  destruct (String.eqb_spec (type d) "array") as [is_array | other].
  - destruct (elementType d) as [inner|] eqn:element.
    + destruct (IH inner eq_refl) as [body inner_form].
      exists body.
      rewrite (formatPropType_array_level d inner is_array element).
      rewrite (array_depth_level d inner is_array element), inner_form.
      rewrite copies_S, copies_S_r. now rewrite !append_assoc.
    + destruct (formatPropType_leaf d) as [body form]; [now intros _|].
      exists body. rewrite array_depth_leaf by now intros _.
      unfold copies. simpl repeat. simpl String.concat.
      now rewrite form, append_nil_r.
  - destruct (formatPropType_leaf d) as [body form]; [now intros is_array|].
    exists body. rewrite array_depth_leaf by now intros is_array.
    unfold copies. simpl repeat. simpl String.concat.
    now rewrite form, append_nil_r.
Qed.

(** X2: a descriptor of type "object" that has a [props] field is rendered
    as its [typeName] in a code span when the name is a string that is not
    empty, and as [`object`] when the name is absent or empty. *)
Theorem formatPropType_object_with_props
    (d : PropDescriptor) (nested : list (string * PropDescriptor)) :
  type d = "object" ->
  props d = Some nested ->
  (typeName d = None \/ typeName d = Some "" -> formatPropType d = "`object`")
  /\ (forall n, typeName d = Some n -> n <> "" ->
                formatPropType d = "`" ++ n ++ "`").
Proof.
  destruct d as [t o dv et ps tn]. simpl. intros -> ->. split.
  - intros [-> | ->]; destruct et; reflexivity.
  - intros n -> nonempty. destruct n as [|c n]; [now elim nonempty|].
    destruct et; reflexivity.
Qed.

Lemma formatPropType_object_with_props_witness :
  formatPropType
    (mkPropDescriptor "object" false None None (Some []) (Some "Theme"))
  = "`Theme`".
Proof.
  destruct (formatPropType_object_with_props
              (mkPropDescriptor "object" false None None (Some []) (Some "Theme"))
              [] eq_refl eq_refl) as [_ named].
  apply (named "Theme"); [reflexivity | discriminate].
Defined.

(** ** The component renderer *)

Lemma concat_empty_cons (s : string) (rest : list string) :
  String.concat "" (s :: rest) = s ++ String.concat "" rest.
Proof.
  destruct rest as [|t rest]; simpl; [now rewrite append_nil_r | reflexivity].
Qed.

Lemma fold_renderComponent_concat (cs : list Component) :
  fold_left renderComponent cs ""
  = String.concat "" (map (renderComponent "") cs).
Proof.
  induction cs as [|c cs IH].
  - reflexivity.
  - cbn [fold_left map]. rewrite concat_empty_cons, <- IH.
    now rewrite (fold_renderComponent_from cs (renderComponent "" c)).
Qed.

Lemma fold_propRow_concat (rows : list (string * PropDescriptor)) (a : string) :
  fold_left propRow rows a = a ++ String.concat "" (map (propRow "") rows).
Proof.
  revert a. induction rows as [|row rows IH]; intros a.
  - simpl. now rewrite append_nil_r.
  - cbn [fold_left map]. rewrite concat_empty_cons, IH.
    rewrite <- (append_nil_r a) at 1.
    now rewrite propRow_append, append_assoc.
Qed.

(** X3: the document of an analysis with components is the sections of
    its components, one after the other, in the order of the sequence. *)
Theorem generateComponentMarkdown_sections
    (result : ComponentAnalysis) (all : list Component) :
  components result = Some all ->
  all <> [] ->
  generateComponentMarkdown (Some result)
  = String.concat "" (map (renderComponent "") all).
Proof.
  intros listed nonempty. unfold generateComponentMarkdown. rewrite listed.
  destruct all as [|first others]; [now elim nonempty|].
  apply fold_renderComponent_concat.
Qed.

Lemma generateComponentMarkdown_sections_witness :
  generateComponentMarkdown (Some (mkAnalysis (Some [Button; Menu])))
  = String.concat "" (map (renderComponent "") [Button; Menu]).
Proof.
  apply generateComponentMarkdown_sections; [reflexivity | discriminate].
Defined.

(** X4: the section of a component whose prop map is absent or empty is
    its heading, its annotation line if any, the "Props" heading and the
    line "*No props*"; it holds no table. *)
Theorem renderComponent_no_props (component : Component) :
  component_props component = None \/ component_props component = Some [] ->
  renderComponent "" component
  = "## " ++ name component ++ LF ++ LF
    ++ wrapperLine component
    ++ "### Props" ++ LF ++ LF ++ "*No props*" ++ LF ++ LF.
Proof.
  unfold renderComponent, wrapperLine.
  intros [-> | ->]; destruct (truthy (wrapperFn component)); cbv zeta;
    change ("" ++ "## " ++ name component ++ LF ++ LF)
      with ("## " ++ name component ++ LF ++ LF);
    now rewrite !append_assoc.
Qed.

Lemma renderComponent_no_props_witness :
  renderComponent "" Button
  = "## " ++ name Button ++ LF ++ LF
    ++ wrapperLine Button
    ++ "### Props" ++ LF ++ LF ++ "*No props*" ++ LF ++ LF.
Proof.
  apply renderComponent_no_props. left. reflexivity.
Defined.

(** X5: the section of a component with props holds, after the two header
    lines of the table, one row per prop, in the order of the map, and
    then an empty line. *)
Theorem renderComponent_props_table
    (component : Component) (rows : list (string * PropDescriptor)) :
  component_props component = Some rows ->
  rows <> [] ->
  renderComponent "" component
  = "## " ++ name component ++ LF ++ LF
    ++ wrapperLine component
    ++ "### Props" ++ LF ++ LF
    ++ "| Prop | Type | Optional | Default |" ++ LF
    ++ "|------|------|----------|--------|" ++ LF
    ++ String.concat "" (map (propRow "") rows)
    ++ LF.
Proof.
  intros listed nonempty. unfold renderComponent, wrapperLine. rewrite listed.
  destruct rows as [|row rows]; [now elim nonempty|].
  destruct (truthy (wrapperFn component)); cbv zeta;
    change ("" ++ "## " ++ name component ++ LF ++ LF)
      with ("## " ++ name component ++ LF ++ LF);
    rewrite fold_propRow_concat; now rewrite !append_assoc.
Qed.

Lemma renderComponent_props_table_witness :
  renderComponent "" Menu
  = "## Menu" ++ LF ++ LF
    ++ "### Props" ++ LF ++ LF
    ++ "| Prop | Type | Optional | Default |" ++ LF
    ++ "|------|------|----------|--------|" ++ LF
    ++ "| `items` | array<`string`> | ✓ |  |" ++ LF
    ++ "| `label` | `string` | ✗ | `Menu` |" ++ LF
    ++ LF.
Proof.
  rewrite (renderComponent_props_table Menu
             [("items", array_of string_prop);
              ("label",
               mkPropDescriptor "string" false (Some "Menu") None None None)]).
  - reflexivity.
  - reflexivity.
  - discriminate.
Defined.

(** ** The file system functions *)

Lemma flat_map_nil {A B : Type} (f : A -> list B) (xs : list A) :
  flat_map f xs = [] <-> forall x, In x xs -> f x = [].
Proof.
  induction xs as [|x xs IH]; simpl.
  - split; [intros _ x [] | reflexivity].
  - split.
    + intros empty. apply app_eq_nil in empty as [head tail].
      intros y [<- | member]; [exact head | now apply IH].
    + intros each. rewrite (each x (or_introl eq_refl)). simpl.
      apply IH. intros y member. apply each. now right.
Qed.

Section FurtherProperties.

Variable join : string -> string -> string.
Variable relative : string -> string -> string.
Variable basename : string -> string.
Variable directory_at : string -> Directory.
Variable file_at : string -> completion string.
Variable analyzeReactFile : string -> string -> completion ComponentAnalysis.

(** *** [listReactFiles] *)

Lemma diagnostics_listable (directory : string) (entries : list Dirent) :
  diagnostics join directory (mkDirectory None entries)
  = flat_map (fun entry =>
      match entry with
      | Dir name sub => diagnostics join (join directory name) sub
      | _ => []
      end) entries.
Proof. reflexivity. Qed.

(** X6: scanning a listable directory is scanning the first part of its
    listing and then the rest: the entries are visited in listing order,
    each subdirectory in full before the next entry. *)
Theorem scanDirectory_listing_app
    (directory : string) (first rest : list Dirent) (w : World) :
  scanDirectory join directory (mkDirectory None (first ++ rest)) w
  = (scanDirectory join directory (mkDirectory None first) ;;
     scanDirectory join directory (mkDirectory None rest)) w.
Proof.
  unfold bind. rewrite !scanDirectory_emits. cbn [reactFiles console].
  rewrite !collect_listable, !diagnostics_listable, !flat_map_app.
  now rewrite !app_assoc.
Qed.

Lemma diagnostics_silent (d : Directory) :
  forall directory,
    diagnostics join directory d = [] <-> all_listable d = true.
Proof.
  induction d as [failed listing IH] using Directory_subtrees_ind.
  intros directory. destruct failed as [error|].
  - split; discriminate.
  - rewrite diagnostics_listable, flat_map_nil.
    change (all_listable (mkDirectory None listing))
      with (forallb (fun entry =>
                       match entry with
                       | Dir _ sub => all_listable sub
                       | _ => true
                       end) listing).
    rewrite forallb_forall. split.
    + intros silent [n | n sub | n] member; try reflexivity.
      apply (IH n sub member (join directory n)).
      exact (silent (Dir n sub) member).
    + intros listable [n | n sub | n] member; try reflexivity.
      apply (IH n sub member (join directory n)).
      exact (listable (Dir n sub) member).
Qed.

(** X7: [listReactFiles] leaves the console as it is exactly when every
    directory of the project tree can be listed. *)
Theorem listReactFiles_silent_iff_listable (subFolder : string) (w : World) :
  console (snd (listReactFiles join directory_at subFolder w)) = console w
  <-> all_listable (directory_at (join PROJECT_ROOT subFolder)) = true.
Proof.
  rewrite listReactFiles_run. cbn [snd console].
  rewrite <- (diagnostics_silent _ (join PROJECT_ROOT subFolder)). split.
  - intros same. apply (app_inv_head (console w)). now rewrite app_nil_r.
  - intros ->. apply app_nil_r.
Qed.

(** X8: when the project directory itself cannot be listed (it does not
    exist, say), [listReactFiles] returns the empty sequence and writes the
    one line "Error scanning directory <path>: <error>". *)
Theorem listReactFiles_unlistable_project
    (subFolder : string) (error : exn) (w : World) :
  failure (directory_at (join PROJECT_ROOT subFolder)) = Some error ->
  listReactFiles join directory_at subFolder w
  = (Returned [],
     mkWorld []
       (console w
        ++ ["Error scanning directory " ++ join PROJECT_ROOT subFolder
            ++ ": " ++ toString error])).
Proof.
  intros failed. rewrite listReactFiles_run.
  destruct (directory_at (join PROJECT_ROOT subFolder)) as [failure listing].
  simpl in failed. subst failure. reflexivity.
Qed.

(** X9: each call of [listReactFiles] starts from an empty array: a
    second call, on the state the first one left, returns the same paths
    again, not the paths of both. *)
Theorem listReactFiles_again (subFolder : string) (w : World) :
  fst (listReactFiles join directory_at subFolder
         (snd (listReactFiles join directory_at subFolder w)))
  = fst (listReactFiles join directory_at subFolder w).
Proof. now rewrite !listReactFiles_run. Qed.

(** *** [analyzeReactFileContents] *)

Lemma analyzeReactFileContents_run (filePath : string) (w : World) :
  analyzeReactFileContents basename file_at analyzeReactFile filePath w
  = (Returned (analysis_of basename file_at analyzeReactFile filePath),
     mkWorld (reactFiles w)
       (console w
        ++ analysis_diagnostics basename file_at analyzeReactFile filePath)).
Proof.
  unfold analyzeReactFileContents, analysis_of, analysis_diagnostics,
    try_catch, bind, call.
  destruct w as [pushed lines].
  destruct (file_at filePath) as [fileContent | error]; cbv zeta.
  - destruct (analyzeReactFile (basename filePath) fileContent);
      cbn [reactFiles console]; rewrite ?app_nil_r; reflexivity.
  - reflexivity.
Qed.

(** *** [generateProjectDocs] *)

Lemma concat_empty_app (front back : list string) :
  String.concat "" (front ++ back)
  = String.concat "" front ++ String.concat "" back.
Proof.
  induction front as [|s front IH].
  - reflexivity.
  - change ((s :: front) ++ back)%list with (s :: (front ++ back)%list).
    now rewrite !concat_empty_cons, IH, append_assoc.
Qed.

Lemma occurs_in_middle (before s after : string) :
  occurs_in s (before ++ s ++ after).
Proof. now exists before, after. Qed.

Lemma occurs_in_trans (s t u : string) :
  occurs_in s t -> occurs_in t u -> occurs_in s u.
Proof.
  intros (b1 & a1 & ->) (b2 & a2 & ->). exists (b2 ++ b1), (a1 ++ a2).
  now rewrite !append_assoc.
Qed.

(** One turn of the loop over the files appends the section of the file
    and writes the console lines of its analysis. *)
Lemma fileSection_turn (markdown filePath : string) (w : World) :
  (analysis <- analyzeReactFileContents basename file_at analyzeReactFile
                 filePath ;;
   match analysis with
   | Some result =>
       ret ((markdown ++ LF ++ "---" ++ LF ++ LF ++ "# File: "
                      ++ relative PROJECT_ROOT filePath ++ LF ++ LF)
            ++ generateComponentMarkdown (Some result))
   | None =>
       ret ((markdown ++ LF ++ "---" ++ LF ++ LF ++ "# File: "
                      ++ relative PROJECT_ROOT filePath ++ LF ++ LF)
            ++ "*Error analyzing file*" ++ LF ++ LF)
   end) w
  = (Returned
       (markdown ++ fileSection relative basename file_at analyzeReactFile
                      filePath),
     mkWorld (reactFiles w)
       (console w
        ++ analysis_diagnostics basename file_at analyzeReactFile filePath)).
Proof.
  unfold bind. rewrite analyzeReactFileContents_run. unfold fileSection.
  destruct (analysis_of basename file_at analyzeReactFile filePath);
    unfold ret; now rewrite !append_assoc.
Qed.

Lemma fileSections_loop (paths : list string) :
  forall (markdown : string) (w : World),
    for_of_var paths markdown (fun markdown filePath =>
      let relativePath := relative PROJECT_ROOT filePath in
      let markdown :=
        markdown ++ LF ++ "---" ++ LF ++ LF ++ "# File: " ++ relativePath
                 ++ LF ++ LF in
      analysis <- analyzeReactFileContents basename file_at analyzeReactFile
                    filePath ;;
      match analysis with
      | Some result =>
          ret (markdown ++ generateComponentMarkdown (Some result))
      | None =>
          ret (markdown ++ "*Error analyzing file*" ++ LF ++ LF)
      end) w
    = (Returned
         (markdown
          ++ String.concat ""
               (map (fileSection relative basename file_at analyzeReactFile)
                    paths)),
       mkWorld (reactFiles w)
         (console w
          ++ flat_map (analysis_diagnostics basename file_at analyzeReactFile)
               paths)).
Proof.
  induction paths as [|filePath paths IH]; intros markdown w.
  - destruct w as [pushed lines]. unfold for_of_var, ret. simpl.
    now rewrite append_nil_r, app_nil_r.
  - match goal with
    | |- for_of_var _ _ ?body _ = _ =>
        change (for_of_var (filePath :: paths) markdown body w)
          with ((v <- body markdown filePath ;; for_of_var paths v body) w);
        set (turn := body) in *
    end.
    assert (step : forall w, turn markdown filePath w = _)
      by (intros w0; exact (fileSection_turn markdown filePath w0)).
    unfold bind at 1. rewrite step, IH. cbn [reactFiles console map flat_map].
    now rewrite concat_empty_cons, append_assoc, app_assoc.
Qed.

Lemma generateProjectDocs_run (projectName : string) (w : World) :
  generateProjectDocs join relative basename directory_at file_at
    analyzeReactFile projectName w
  = let folderPath := join PROJECT_ROOT projectName in
    let paths := collect join folderPath (directory_at folderPath) in
    (Returned
       (match paths with
        | [] => "# " ++ projectName ++ LF ++ LF ++ "No React components found."
        | _ :: _ =>
            ("# " ++ projectName ++ " Components" ++ LF ++ LF)
            ++ String.concat ""
                 (map (fileSection relative basename file_at analyzeReactFile)
                      paths)
        end),
     mkWorld paths
       ((console w ++ diagnostics join folderPath (directory_at folderPath))
        ++ flat_map (analysis_diagnostics basename file_at analyzeReactFile)
             paths)).
Proof.
  unfold generateProjectDocs. unfold bind at 1.
  rewrite listReactFiles_run. cbv zeta.
  destruct (collect join (join PROJECT_ROOT projectName)
              (directory_at (join PROJECT_ROOT projectName)))
    as [|first others] eqn:scanned.
  - cbn [List.length Nat.eqb]. unfold ret. now rewrite app_nil_r.
  - cbn [List.length Nat.eqb]. now rewrite fileSections_loop.
Qed.

(** X10: [generateProjectDocs] returns a document for every project name
    and every state of the file system and of the analyzer: no failure of
    a directory, of a file or of the analyzer reaches its caller. *)
Theorem generateProjectDocs_never_throws (projectName : string) (w : World) :
  exists docs w',
    generateProjectDocs join relative basename directory_at file_at
      analyzeReactFile projectName w
    = (Returned docs, w').
Proof.
  rewrite generateProjectDocs_run. cbv zeta. eexists. eexists. reflexivity.
Qed.

(** X11: when the scan finds files, the document is the heading
    "# <name> Components", an empty line, and then the section of each
    file in the order of the scan. *)
Theorem generateProjectDocs_sections
    (projectName : string) (paths : list string) (w : World) :
  fst (listReactFiles join directory_at projectName w) = Returned paths ->
  paths <> [] ->
  fst (generateProjectDocs join relative basename directory_at file_at
         analyzeReactFile projectName w)
  = Returned
      ("# " ++ projectName ++ " Components" ++ LF ++ LF
       ++ String.concat ""
            (map (fileSection relative basename file_at analyzeReactFile)
                 paths)).
Proof.
  rewrite listReactFiles_run, generateProjectDocs_run. cbv zeta. cbn [fst].
  intros scanned nonempty. injection scanned as ->.
  destruct paths as [|first others]; [now elim nonempty|].
  now rewrite !append_assoc.
Qed.

(** X12: the console after [generateProjectDocs] is the console after the
    scan followed by one line for each file whose analysis failed, in the
    order of the scan. *)
Theorem generateProjectDocs_console
    (projectName : string) (paths : list string) (w scanned : World) :
  listReactFiles join directory_at projectName w = (Returned paths, scanned) ->
  console (snd (generateProjectDocs join relative basename directory_at
                  file_at analyzeReactFile projectName w))
  = (console scanned
     ++ flat_map (analysis_diagnostics basename file_at analyzeReactFile) paths)%list.
Proof.
  rewrite listReactFiles_run, generateProjectDocs_run. cbv zeta.
  intros run. injection run as <- <-. reflexivity.
Qed.

Lemma fileSection_occurs (paths : list string) (filePath : string) :
  In filePath paths ->
  occurs_in (fileSection relative basename file_at analyzeReactFile filePath)
    (String.concat ""
       (map (fileSection relative basename file_at analyzeReactFile) paths)).
Proof.
  intros member. apply in_split in member as (front & back & ->).
  rewrite map_app, concat_empty_app. cbn [map].
  rewrite concat_empty_cons. apply occurs_in_middle.
Qed.

(** X13: for every file of the scan whose analysis failed, the document
    holds the heading of the file followed by the line
    "*Error analyzing file*". *)
Theorem generateProjectDocs_failed_file
    (projectName : string) (paths : list string) (filePath : string)
    (w : World) :
  fst (listReactFiles join directory_at projectName w) = Returned paths ->
  In filePath paths ->
  analysis_of basename file_at analyzeReactFile filePath = None ->
  exists docs,
    fst (generateProjectDocs join relative basename directory_at file_at
           analyzeReactFile projectName w) = Returned docs
    /\ occurs_in ("# File: " ++ relative PROJECT_ROOT filePath ++ LF ++ LF
                  ++ "*Error analyzing file*" ++ LF ++ LF) docs.
Proof.
  rewrite listReactFiles_run, generateProjectDocs_run. cbv zeta. cbn [fst].
  intros scanned member failed. injection scanned as ->.
  destruct paths as [|first others] eqn:shape; [destruct member|].
  rewrite <- shape in *. eexists. split; [reflexivity|].
  apply occurs_in_trans
    with (t := fileSection relative basename file_at analyzeReactFile filePath).
  - unfold fileSection. rewrite failed.
    exists (LF ++ "---" ++ LF ++ LF), "".
    now rewrite append_nil_r, !append_assoc.
  - apply occurs_in_trans
      with (t := String.concat ""
                   (map (fileSection relative basename file_at analyzeReactFile)
                        paths)).
    + now apply fileSection_occurs.
    + exists ("# " ++ projectName ++ " Components" ++ LF ++ LF), "".
      now rewrite append_nil_r.
Qed.

(** X14: the line "**No components found**" ends without a line feed: when
    the analysis of a file has no components and another file follows, the
    rule of the next section comes on the very next line, with no empty
    line between them. *)
Theorem generateProjectDocs_no_components_then_rule
    (projectName : string) (front back : list string)
    (filePath next : string) (result : ComponentAnalysis) (w : World) :
  fst (listReactFiles join directory_at projectName w)
  = Returned (front ++ filePath :: next :: back)%list ->
  analysis_of basename file_at analyzeReactFile filePath = Some result ->
  components result = None \/ components result = Some [] ->
  exists docs,
    fst (generateProjectDocs join relative basename directory_at file_at
           analyzeReactFile projectName w) = Returned docs
    /\ occurs_in ("# File: " ++ relative PROJECT_ROOT filePath ++ LF ++ LF
                  ++ "**No components found**" ++ LF ++ "---" ++ LF ++ LF
                  ++ "# File: " ++ relative PROJECT_ROOT next ++ LF ++ LF)
         docs.
Proof.
  rewrite listReactFiles_run, generateProjectDocs_run. cbv zeta. cbn [fst].
  intros scanned analysed empty. injection scanned as ->.
  assert (marker : generateComponentMarkdown (Some result)
                   = "**No components found**").
  { unfold generateComponentMarkdown. now destruct empty as [-> | ->]. }
  destruct (front ++ filePath :: next :: back)%list as [|first others] eqn:shape.
  { now destruct front. }
  rewrite <- shape. eexists. split; [reflexivity|].
  rewrite map_app, concat_empty_app. cbn [map].
  rewrite !concat_empty_cons.
  unfold fileSection at 2 3. rewrite analysed, marker.
  eexists (("# " ++ projectName ++ " Components" ++ LF ++ LF)
           ++ String.concat ""
                (map (fileSection relative basename file_at analyzeReactFile)
                     front)
           ++ LF ++ "---" ++ LF ++ LF), _.
  rewrite !append_assoc. reflexivity.
Qed.

End FurtherProperties.

Lemma listReactFiles_unlistable_project_witness :
  listReactFiles sample_join sample_fs "nowhere" (mkWorld [] [])
  = (Returned [],
     mkWorld []
       ["Error scanning directory /Users/azer/code/nowhere: ENOENT"]).
Proof.
  apply (listReactFiles_unlistable_project sample_join sample_fs "nowhere"
           (Error "ENOENT") (mkWorld [] [])).
  reflexivity.
Defined.

Lemma generateProjectDocs_sections_witness :
  fst (generateProjectDocs sample_join sample_relative sample_basename
         sample_fs sample_files sample_analyzer "app" (mkWorld [] []))
  = Returned
      ("# app Components" ++ LF ++ LF
       ++ String.concat ""
            (map (fileSection sample_relative sample_basename sample_files
                    sample_analyzer)
                 ["/Users/azer/code/app/App.tsx";
                  "/Users/azer/code/app/.storybook/Preview.jsx";
                  "/Users/azer/code/app/src/Menu.jsx"])).
Proof.
  apply (generateProjectDocs_sections sample_join sample_relative
           sample_basename sample_fs sample_files sample_analyzer "app"
           ["/Users/azer/code/app/App.tsx";
            "/Users/azer/code/app/.storybook/Preview.jsx";
            "/Users/azer/code/app/src/Menu.jsx"]
           (mkWorld [] [])).
  - reflexivity.
  - discriminate.
Defined.

Lemma generateProjectDocs_console_witness :
  console
    (snd (generateProjectDocs sample_join sample_relative sample_basename
            sample_fs sample_files sample_analyzer "app" (mkWorld [] [])))
  = ["Error scanning directory /Users/azer/code/app/locked: EACCES";
     "Error analyzing file /Users/azer/code/app/App.tsx: ENOENT"].
Proof.
  rewrite (generateProjectDocs_console sample_join sample_relative
             sample_basename sample_fs sample_files sample_analyzer "app"
             ["/Users/azer/code/app/App.tsx";
              "/Users/azer/code/app/.storybook/Preview.jsx";
              "/Users/azer/code/app/src/Menu.jsx"]
             (mkWorld [] [])
             (mkWorld
                ["/Users/azer/code/app/App.tsx";
                 "/Users/azer/code/app/.storybook/Preview.jsx";
                 "/Users/azer/code/app/src/Menu.jsx"]
                ["Error scanning directory /Users/azer/code/app/locked: EACCES"])).
  - reflexivity.
  - reflexivity.
Defined.

Lemma generateProjectDocs_failed_file_witness :
  exists docs,
    fst (generateProjectDocs sample_join sample_relative sample_basename
           sample_fs sample_files sample_analyzer "app" (mkWorld [] []))
    = Returned docs
    /\ occurs_in ("# File: "
                  ++ sample_relative PROJECT_ROOT "/Users/azer/code/app/App.tsx"
                  ++ LF ++ LF ++ "*Error analyzing file*" ++ LF ++ LF) docs.
Proof.
  apply (generateProjectDocs_failed_file sample_join sample_relative
           sample_basename sample_fs sample_files sample_analyzer "app"
           ["/Users/azer/code/app/App.tsx";
            "/Users/azer/code/app/.storybook/Preview.jsx";
            "/Users/azer/code/app/src/Menu.jsx"]).
  - reflexivity.
  - left. reflexivity.
  - reflexivity.
Defined.

Lemma generateProjectDocs_no_components_then_rule_witness :
  exists docs,
    fst (generateProjectDocs sample_join sample_relative sample_basename
           sample_fs sample_files sample_analyzer "app" (mkWorld [] []))
    = Returned docs
    /\ occurs_in ("# File: app/.storybook/Preview.jsx" ++ LF ++ LF
                  ++ "**No components found**" ++ LF ++ "---" ++ LF ++ LF
                  ++ "# File: app/src/Menu.jsx" ++ LF ++ LF) docs.
Proof.
  apply (generateProjectDocs_no_components_then_rule sample_join
           sample_relative sample_basename sample_fs sample_files
           sample_analyzer "app"
           ["/Users/azer/code/app/App.tsx"] []
           "/Users/azer/code/app/.storybook/Preview.jsx"
           "/Users/azer/code/app/src/Menu.jsx"
           (mkAnalysis (Some [])) (mkWorld [] [])).
  - reflexivity.
  - reflexivity.
  - right. reflexivity.
Defined.

(** ** The tool server *)

Section ServerProperties.

Variable join : string -> string -> string.
Variable relative : string -> string -> string.
Variable basename : string -> string.
Variable directory_at : string -> Directory.
Variable file_at : string -> completion string.
Variable analyzeReactFile : string -> string -> completion ComponentAnalysis.
Variable ErrorCode : Type.
Variable MethodNotFound : ErrorCode.
Variable McpError : ErrorCode -> string -> exn.

Lemma listProjects_returns (w : World) :
  exists projects w',
    listProjects directory_at w = (Returned projects, w').
Proof.
  unfold listProjects, try_catch, bind, readdirSync.
  destruct (directory_at PROJECT_ROOT) as [[error|] listing];
    eexists; eexists; reflexivity.
Qed.

(** X15: a request for a tool that the tool list does not name is answered
    with the exception [McpError(MethodNotFound, "Tool not found")]; the
    file system is not read and nothing is written to the console. *)
Theorem callTool_unlisted_tool
    (name : string) (arguments : Arguments) (w : World) :
  ~ In name (map tool_name listTools) ->
  callTool join relative basename directory_at file_at analyzeReactFile
    ErrorCode MethodNotFound McpError name arguments w
  = (Thrown (McpError MethodNotFound "Tool not found"), w).
Proof.
  intros unlisted. unfold callTool.
  destruct (String.eqb_spec name "analyze-react") as [-> | _].
  { elim unlisted. simpl. auto. }
  destruct (String.eqb_spec name "analyze-project") as [-> | _].
  { elim unlisted. simpl. auto. }
  destruct (String.eqb_spec name "list-projects") as [-> | _].
  { elim unlisted. simpl. auto. }
  reflexivity.
Qed.

(** X16: the tools "list-projects" and "analyze-project" always answer:
    the first with the names [listProjects] returns, the second with the
    document [generateProjectDocs] returns for the [projectName] argument;
    no failure of the file system or of the analyzer makes them throw. *)
Theorem callTool_project_tools_answer (arguments : Arguments) (w : World) :
  (exists projects w',
      callTool join relative basename directory_at file_at analyzeReactFile
        ErrorCode MethodNotFound McpError "list-projects" arguments w
      = (Returned (Projects projects), w')
      /\ fst (listProjects directory_at w) = Returned projects)
  /\ (exists docs w',
         callTool join relative basename directory_at file_at
           analyzeReactFile ErrorCode MethodNotFound McpError
           "analyze-project" arguments w
         = (Returned (Docs docs), w')
         /\ fst (generateProjectDocs join relative basename directory_at
                   file_at analyzeReactFile (projectName arguments) w)
            = Returned docs).
Proof.
  split.
  - destruct (listProjects_returns w) as (projects & w' & run).
    exists projects, w'. unfold callTool, bind. cbn [String.eqb Ascii.eqb Bool.eqb].
    rewrite run. split; reflexivity.
  - unfold callTool, bind. cbn [String.eqb Ascii.eqb Bool.eqb]. cbv zeta.
    rewrite generateProjectDocs_run. cbv zeta.
    eexists. eexists. split; reflexivity.
Qed.

(** X17: the tool "analyze-react" gives the [files] argument to the
    analyzer under the fixed file name "MyComponent.tsx" and answers with
    its result; an exception of the analyzer is not caught here: it
    reaches the caller as it is, and nothing is written to the console. *)
Theorem callTool_analyze_react (arguments : Arguments) (w : World) :
  (forall result,
      analyzeReactFile "MyComponent.tsx" (files arguments) = Returned result ->
      callTool join relative basename directory_at file_at analyzeReactFile
        ErrorCode MethodNotFound McpError "analyze-react" arguments w
      = (Returned (AnalysisResult result), w))
  /\ (forall error,
         analyzeReactFile "MyComponent.tsx" (files arguments) = Thrown error ->
         callTool join relative basename directory_at file_at
           analyzeReactFile ErrorCode MethodNotFound McpError
           "analyze-react" arguments w
         = (Thrown error, w)).
Proof.
  split; intros outcome analysed; unfold callTool, bind, call;
    cbn [String.eqb Ascii.eqb Bool.eqb]; cbv zeta; now rewrite analysed.
Qed.

End ServerProperties.

Lemma callTool_unlisted_tool_witness :
  callTool sample_join sample_relative sample_basename sample_fs sample_files
    sample_analyzer sample_code sample_MethodNotFound sample_McpError
    "delete-project" (mkArguments "" "app") (mkWorld [] [])
  = (Thrown (Error "McpError: Tool not found"), mkWorld [] []).
Proof.
  apply (callTool_unlisted_tool sample_join sample_relative sample_basename
           sample_fs sample_files sample_analyzer sample_code
           sample_MethodNotFound sample_McpError "delete-project"
           (mkArguments "" "app") (mkWorld [] [])).
  simpl. intros [listed | [listed | [listed | []]]]; discriminate listed.
Defined.
